(** * CopyQueue: a clipboard queue driven by global hotkeys

    Shallow embedding of [src/CopyQueue.pyw] and the properties of its
    queue / cursor state machine.

    The Python module keeps four module-level globals and registers five
    zero-argument callbacks with the [keyboard] package.  Each callback
    reads and writes the globals and talks to the Windows clipboard through
    [win32clipboard].  A Python exception leaves every assignment made
    before it in place, so the callbacks are modelled in a state monad
    whose failures keep the state reached so far. *)

From Stdlib Require Import ZArith List String Bool Lia.
Import ListNotations.
Local Open Scope string_scope.
Local Open Scope list_scope.
Local Open Scope Z_scope.

(** ** Data model *)

(** The module-level globals, lines 5-8. *)
Record Globals : Type := mkGlobals {
  CopyQueue  : list string;   (* CopyQueue = []   *)
  Qcount     : Z;             (* Qcount = 0       *)
  placeCount : Z;             (* placeCount = 0   *)
  QueueMode  : bool           (* QueueMode = True *)
}.

Definition initGlobals : Globals := mkGlobals [] 0 0 true.

Definition set_CopyQueue (l : list string) (g : Globals) : Globals :=
  mkGlobals l (Qcount g) (placeCount g) (QueueMode g).
Definition set_Qcount (n : Z) (g : Globals) : Globals :=
  mkGlobals (CopyQueue g) n (placeCount g) (QueueMode g).
Definition set_placeCount (n : Z) (g : Globals) : Globals :=
  mkGlobals (CopyQueue g) (Qcount g) n (QueueMode g).
Definition set_QueueMode (b : bool) (g : Globals) : Globals :=
  mkGlobals (CopyQueue g) (Qcount g) (placeCount g) b.

(** Calls that leave the process: the [win32clipboard] functions the module
    uses and [time.sleep] (its argument in milliseconds). *)
Inductive Call : Type :=
| COpenClipboard
| CEmptyClipboard
| CSetClipboardText (s : string)
| CGetClipboardData
| CCloseClipboard
| CSleep (ms : Z).

(** The world outside the module: the text on the clipboard ([None] when it
    holds no text), a schedule telling which of the coming clipboard calls
    fail ([true] = the call raises; an exhausted schedule means no more
    failures), and the calls issued so far, oldest first. *)
Record Env : Type := mkEnv {
  clip   : option string;
  faults : list bool;
  trace  : list Call
}.

(** Python exceptions the callbacks can meet. *)
Inductive Exn : Type :=
| IndexError          (* list index out of range / pop from empty list *)
| TypeError           (* GetClipboardData: no text on the clipboard    *)
| pywintypes_error.   (* a win32clipboard call failed                  *)

Inductive Res (A : Type) : Type :=
| Ok (a : A)
| Raise (x : Exn).
Arguments Ok {A} a.
Arguments Raise {A} x.

Record Out (A : Type) : Type := mkOut {
  res  : Res A;
  glob : Globals;
  env  : Env
}.
Arguments mkOut {A} _ _ _.
Arguments res {A} _.
Arguments glob {A} _.
Arguments env {A} _.

(** ** The monad of callbacks *)

Definition M (A : Type) : Type := Globals -> Env -> Out A.

Definition ret {A} (a : A) : M A := fun g e => mkOut (Ok a) g e.

Definition raise {A} (x : Exn) : M A := fun g e => mkOut (Raise x) g e.

Definition bind {A B} (m : M A) (k : A -> M B) : M B :=
  fun g e =>
    match m g e with
    | mkOut (Ok a) g' e'    => k a g' e'
    | mkOut (Raise x) g' e' => mkOut (Raise x) g' e'
    end.

Declare Scope py_scope.
Delimit Scope py_scope with py.
Notation "x <- m ;; k" := (bind m (fun x => k))
  (at level 61, m at next level, right associativity) : py_scope.
Notation "m ;; k" := (bind m (fun _ => k))
  (at level 61, right associativity) : py_scope.
Local Open Scope py_scope.

(** Reading a global, and assigning to one. *)
Definition gets {A} (f : Globals -> A) : M A := fun g e => mkOut (Ok (f g)) g e.

Definition modify (f : Globals -> Globals) : M unit :=
  fun g e => mkOut (Ok tt) (f g) e.

(** ** Python list operations on [CopyQueue] *)

(** [l[i]]: a negative index counts from the end; outside
    [-len(l), len(l)-1] Python raises [IndexError]. *)
Definition py_getitem {A} (l : list A) (i : Z) : option A :=
  if 0 <=? i then nth_error l (Z.to_nat i)
  else if 0 <=? i + Z.of_nat (List.length l)
       then nth_error l (Z.to_nat (i + Z.of_nat (List.length l)))
       else None.

(** [CopyQueue[i]] *)
Definition CopyQueue_getitem (i : Z) : M string :=
  l <- gets CopyQueue ;;
  match py_getitem l i with
  | Some x => ret x
  | None   => raise IndexError
  end.

(** [CopyQueue.append(data)] *)
Definition CopyQueue_append (data : string) : M unit :=
  modify (fun g => set_CopyQueue (CopyQueue g ++ [data]) g).

(** [CopyQueue.pop(0)]: removes and returns the first element; on an empty
    list Python raises [IndexError] and the list is left as it was. *)
Definition CopyQueue_pop0 : M string :=
  l <- gets CopyQueue ;;
  match l with
  | []      => raise IndexError
  | x :: xs => modify (set_CopyQueue xs) ;; ret x
  end.

(** [len(CopyQueue)] *)
Definition len_CopyQueue : M Z := gets (fun g => Z.of_nat (List.length (CopyQueue g))).

(** ** The clipboard and the clock *)

(** One call into [win32clipboard]: it is recorded, consumes one entry of
    the fault schedule and, unless that entry says it fails, acts on the
    clipboard text through [act]. *)
Definition win32 {A} (c : Call) (act : option string -> Res A * option string)
  : M A :=
  fun g e =>
    if hd false (faults e)
    then mkOut (Raise pywintypes_error) g
               (mkEnv (clip e) (tl (faults e)) (trace e ++ [c]))
    else mkOut (fst (act (clip e))) g
               (mkEnv (snd (act (clip e))) (tl (faults e)) (trace e ++ [c])).

Definition OpenClipboard : M unit :=
  win32 COpenClipboard (fun c => (Ok tt, c)).

Definition EmptyClipboard : M unit :=
  win32 CEmptyClipboard (fun _ => (Ok tt, None)).

Definition SetClipboardText (s : string) : M unit :=
  win32 (CSetClipboardText s) (fun _ => (Ok tt, Some s)).

Definition GetClipboardData : M string :=
  win32 CGetClipboardData
        (fun c => match c with
                  | Some s => (Ok s, c)
                  | None   => (Raise TypeError, c)
                  end).

Definition CloseClipboard : M unit :=
  win32 CCloseClipboard (fun c => (Ok tt, c)).

(** [time.sleep]: only recorded. *)
Definition sleep (ms : Z) : M unit :=
  fun g e => mkOut (Ok tt) g (mkEnv (clip e) (faults e) (trace e ++ [CSleep ms])).

(** ** The functions of the module

    [print] calls are left out (the output stream is not part of the
    model), but the subscript expressions among their arguments are kept,
    because evaluating them can raise.  A [print] that fails by itself, on
    an output stream that cannot take a text, is therefore outside the
    model: the exceptions of the model are the three of [Exn], and a
    statement about a raise speaks of a failing clipboard call, of a
    clipboard without text and of a subscript or pop missing the list. *)

(** Lines 11-17. *)
Definition fToggleQueueMode : M bool :=
  qm <- gets QueueMode ;;
  (if qm then modify (set_QueueMode false)
         else modify (set_QueueMode true)) ;;
  gets QueueMode.

(** Lines 20-23. *)
Definition fAddCounter : M Z :=
  modify (fun g => set_Qcount (Qcount g + 1) g) ;;
  gets Qcount.

(** Lines 26-29. *)
Definition fPlaceCountAddCounter : M Z :=
  modify (fun g => set_placeCount (placeCount g + 1) g) ;;
  gets placeCount.

(** Lines 32-35. *)
Definition fPlaceCountSubtractCounter : M Z :=
  modify (fun g => set_placeCount (placeCount g - 1) g) ;;
  gets placeCount.

(** Lines 38-41. *)
Definition fSubtractCounter : M Z :=
  modify (fun g => set_Qcount (Qcount g - 1) g) ;;
  gets Qcount.

(** Lines 51-52, the two statements that grow the queue: the operation the
    specification calls Append. *)
Definition Append (data : string) : M unit :=
  CopyQueue_append data ;;
  fAddCounter ;;
  ret tt.

(** Lines 64-65, the two statements that shrink the queue: the operation
    the specification calls PopFront.  [CopyQueue.pop(0)] yields the head;
    the callback drops that value. *)
Definition PopFront : M string :=
  x <- CopyQueue_pop0 ;;
  fSubtractCounter ;;
  ret x.

(** Lines 44-53. *)
Definition fEnqueueCopyQueue : M unit :=
  qm <- gets QueueMode ;;
  if qm then
    sleep 100 ;;
    OpenClipboard ;;
    data <- GetClipboardData ;;
    CloseClipboard ;;
    Append data ;;
    n <- len_CopyQueue ;;
    CopyQueue_getitem (n - 1) ;;          (* argument of print, line 53 *)
    ret tt
  else ret tt.

(** Lines 56-69. *)
Definition fDequeueCopyQueue : M unit :=
  qm <- gets QueueMode ;;
  if qm then
    qc <- gets Qcount ;;
    if 0 <? qc then
      CopyQueue_getitem 0 ;;              (* argument of print, line 59 *)
      OpenClipboard ;;
      EmptyClipboard ;;
      x <- CopyQueue_getitem 0 ;;
      SetClipboardText x ;;
      CloseClipboard ;;
      PopFront ;;
      l <- gets CopyQueue ;;
      match l with
      | [] => ret tt
      | _ :: _ =>
          n <- len_CopyQueue ;;
          CopyQueue_getitem (n - 1) ;;    (* argument of print, line 69 *)
          ret tt
      end
    else ret tt
  else ret tt.

(** Lines 72-75. *)
Definition fPauseProg : M unit :=
  fToggleQueueMode ;;
  sleep 1000.

(** Lines 78-87. *)
Definition fNextInQueue : M unit :=
  qc <- gets Qcount ;;
  pc <- gets placeCount ;;
  n  <- len_CopyQueue ;;
  if (0 <? qc) && (pc <? n - 1) then
    fPlaceCountAddCounter ;;
    OpenClipboard ;;
    EmptyClipboard ;;
    i <- gets placeCount ;;
    x <- CopyQueue_getitem i ;;
    SetClipboardText x ;;
    CloseClipboard ;;
    sleep 100
  else ret tt.

(** Lines 90-98. *)
Definition fPrevInQueue : M unit :=
  qc <- gets Qcount ;;
  pc <- gets placeCount ;;
  if (0 <? qc) && (0 <? pc) then
    fPlaceCountSubtractCounter ;;
    OpenClipboard ;;
    EmptyClipboard ;;
    i <- gets placeCount ;;
    x <- CopyQueue_getitem i ;;
    SetClipboardText x ;;
    CloseClipboard ;;
    sleep 100
  else ret tt.

(** ** Hotkey dispatch, lines 101-107 *)

Inductive Handler : Type :=
| OnCopy      (* ctrl+c     -> fEnqueueCopyQueue *)
| OnPaste     (* ctrl+v     -> fDequeueCopyQueue *)
| OnPause     (* ctrl+b     -> fPauseProg        *)
| OnNext      (* ctrl+right -> fNextInQueue      *)
| OnPrev.     (* ctrl+left  -> fPrevInQueue      *)

Definition callback (h : Handler) : M unit :=
  match h with
  | OnCopy  => fEnqueueCopyQueue
  | OnPaste => fDequeueCopyQueue
  | OnPause => fPauseProg
  | OnNext  => fNextInQueue
  | OnPrev  => fPrevInQueue
  end.

(** The states of the globals the program can be in: the initial one, and
    the one any callback leaves behind, whatever the clipboard held and
    whichever clipboard calls failed, and whether the callback returned or
    raised. *)
Inductive reachable : Globals -> Prop :=
| reach_init : reachable initGlobals
| reach_step : forall g h e,
    reachable g -> reachable (glob (callback h g e)).

(** A session as a list of events: a hotkey press, or another program
    putting text on the clipboard. *)
Inductive Event : Type :=
| Key (h : Handler)
| Copied (s : string).

Definition World : Type := (Globals * Env)%type.

Definition step (ev : Event) (w : World) : Res unit * World :=
  match ev with
  | Key h =>
      let o := callback h (fst w) (snd w) in (res o, (glob o, env o))
  | Copied s =>
      (Ok tt, (fst w, mkEnv (Some s) (faults (snd w)) (trace (snd w))))
  end.

(** Runs the events in order, up to the first callback that raises.  No
    function of the module catches anything and [initProgram] hands the
    callbacks to [keyboard.add_hotkey] as they are: the [keyboard] package
    calls them on its one processing thread, which the first exception a
    callback lets out ends, so the key presses after it are never handled
    and the globals stay as the raise left them. *)
Fixpoint run (evs : list Event) (w : World) : World :=
  match evs with
  | [] => w
  | ev :: evs' =>
      match fst (step ev w) with
      | Ok _    => run evs' (snd (step ev w))
      | Raise _ => snd (step ev w)
      end
  end.

(** An environment with nothing on the clipboard, no failing call and an
    empty call record. *)
Definition quiet : Env := mkEnv None [] [].

(** The size the specification calls Size(): [len(CopyQueue)]. *)
Definition Size (g : Globals) : Z := Z.of_nat (List.length (CopyQueue g)).

(** ** Invariants and sessions used in the statements *)

(** The counter agrees with the list. *)
Definition counter_in_sync (g : Globals) : Prop := Qcount g = Size g.

(** The cursor is an index of the list. *)
Definition cursor_in_range (g : Globals) : Prop :=
  0 <= placeCount g <= Size g - 1.

(** The user copies each text of [ds] in turn with ctrl+c: the focused
    program puts the text on the clipboard and the hotkey fires. *)
Definition copies (ds : list string) : list Event :=
  flat_map (fun d => [Copied d; Key OnCopy]) ds.

(** What a callback [h] may do to a queue that started as [x :: xs]: keep
    it as a prefix, or, for ctrl+v only, take [x] off. *)
Definition head_kept_or_popped (x : string) (xs : list string) (h : Handler)
  (g' : Globals) : Prop :=
  (exists ys, CopyQueue g' = x :: xs ++ ys) \/
  (h = OnPaste /\ CopyQueue g' = xs).

(** What navigation must leave alone: the list, the counter and the mode. *)
Definition nav_frame (g g' : Globals) : Prop :=
  CopyQueue g' = CopyQueue g /\ Qcount g' = Qcount g /\
  QueueMode g' = QueueMode g.

(** The outcome [o] with the mode flag of its globals set to [m]. *)
Definition with_mode {A} (m : bool) (o : Out A) : Out A :=
  mkOut (res o) (set_QueueMode m (glob o)) (env o).

(** The cursor is an index of the list, or 0 when the list is empty. *)
Definition cursor_ok (g : Globals) : Prop :=
  0 <= placeCount g <= Z.max 0 (Size g - 1).

(** Two copies, one step forward, one paste. *)
Definition stale_cursor_session : list Event :=
  copies ["a"; "b"] ++ [Key OnNext; Key OnPaste].

(** Three copies, two steps forward, two pastes. *)
Definition short_queue_session : list Event :=
  copies ["a"; "b"; "c"] ++ [Key OnNext; Key OnNext; Key OnPaste; Key OnPaste].

(** The clipboard calls of one successful ctrl+c (lines 47-50) and of one
    successful ctrl+v of the text [x] (lines 60-63). *)
Definition copy_calls : list Call :=
  [CSleep 100; COpenClipboard; CGetClipboardData; CCloseClipboard].

Definition paste_calls (x : string) : list Call :=
  [COpenClipboard; CEmptyClipboard; CSetClipboardText x; CCloseClipboard].

(** The clipboard text after the texts [ds] were put on it one after the
    other, starting from [c]. *)
Definition clip_after (ds : list string) (c : option string) : option string :=
  fold_left (fun _ d => Some d) ds c.

(** The guards of line 80 and of line 92. *)
Definition next_guard (g : Globals) : bool :=
  (0 <? Qcount g) && (placeCount g <? Size g - 1).

Definition prev_guard (g : Globals) : bool :=
  (0 <? Qcount g) && (0 <? placeCount g).

(** Which callback may write which global: the mode flag is ctrl+b's, the
    cursor belongs to ctrl+right and ctrl+left, the list and the counter to
    ctrl+c and ctrl+v. *)
Definition written_by (h : Handler) (g g' : Globals) : Prop :=
  (h <> OnPause -> QueueMode g' = QueueMode g) /\
  (h <> OnNext -> h <> OnPrev -> placeCount g' = placeCount g) /\
  (h <> OnCopy -> h <> OnPaste ->
   CopyQueue g' = CopyQueue g /\ Qcount g' = Qcount g).

(** ** A weakest-precondition calculus for callbacks

    [wp m Q E g]: started on globals [g], in any environment, [m] either
    returns [a] with globals satisfying [Q a], or raises with globals
    satisfying [E]. *)

Definition wp {A} (m : M A) (Q : A -> Globals -> Prop) (E : Globals -> Prop)
  (g : Globals) : Prop :=
  forall e,
    match res (m g e) with
    | Ok a    => Q a (glob (m g e))
    | Raise _ => E (glob (m g e))
    end.

Section WpRules.
Context {A B : Type}.
Variable Q : A -> Globals -> Prop.
Variable E : Globals -> Prop.

Lemma wp_ret (a : A) g : Q a g -> wp (ret a) Q E g.
Proof. intros H e. exact H. Qed.

Lemma wp_raise (x : Exn) g : E g -> wp (@raise A x) Q E g.
Proof. intros H e. exact H. Qed.

Lemma wp_gets (f : Globals -> A) g : Q (f g) g -> wp (gets f) Q E g.
Proof. intros H e. exact H. Qed.

Lemma wp_win32 c act g :
  E g -> (forall a, Q a g) -> wp (@win32 A c act) Q E g.
Proof.
  intros HE HQ e. unfold win32.
  destruct (hd false (faults e)); cbn; [exact HE|].
  destruct (fst (act (clip e))); [apply HQ | exact HE].
Qed.

Lemma wp_bind (m : M B) (k : B -> M A) g :
  wp m (fun b => wp (k b) Q E) E g -> wp (bind m k) Q E g.
Proof.
  intros H e. specialize (H e). unfold bind.
  destruct (m g e) as [[b|x] g' e']; cbn in *; [apply H | exact H].
Qed.

Lemma wp_conseq (Q' : A -> Globals -> Prop) (E' : Globals -> Prop)
      (m : M A) g :
  wp m Q' E' g ->
  (forall a g', Q' a g' -> Q a g') -> (forall g', E' g' -> E g') ->
  wp m Q E g.
Proof.
  intros H HQ HE e. specialize (H e).
  destruct (res (m g e)); auto.
Qed.
End WpRules.

Lemma wp_modify (Q : unit -> Globals -> Prop) E f g :
  Q tt (f g) -> wp (modify f) Q E g.
Proof. intros H e. exact H. Qed.

Lemma wp_sleep (Q : unit -> Globals -> Prop) E ms g :
  Q tt g -> wp (sleep ms) Q E g.
Proof. intros H e. exact H. Qed.

(** What [wp] says about one run. *)
Lemma wp_run {A} (m : M A) Q E g e :
  wp m Q E g ->
  match res (m g e) with
  | Ok a    => Q a (glob (m g e))
  | Raise _ => E (glob (m g e))
  end.
Proof. intros H. apply H. Qed.

Create HintDb py_defs.
#[local] Hint Unfold
  fToggleQueueMode fAddCounter fPlaceCountAddCounter
  fPlaceCountSubtractCounter fSubtractCounter Append PopFront
  CopyQueue_getitem CopyQueue_append CopyQueue_pop0 len_CopyQueue
  OpenClipboard EmptyClipboard SetClipboardText GetClipboardData
  CloseClipboard
  fEnqueueCopyQueue fDequeueCopyQueue fPauseProg fNextInQueue fPrevInQueue
  : py_defs.

(** One step of symbolic execution of a callback under [wp]. *)
Ltac wp_step :=
  lazymatch goal with
  | |- wp (bind _ _) _ _ _ => apply wp_bind
  | |- wp (ret _) _ _ _ => apply wp_ret
  | |- wp (raise _) _ _ _ => apply wp_raise
  | |- wp (gets _) _ _ _ => apply wp_gets
  | |- wp (modify _) _ _ _ => apply wp_modify
  | |- wp (win32 _ _) _ _ _ => apply wp_win32; [ | intros ? ]
  | |- wp (sleep _) _ _ _ => apply wp_sleep
  | |- wp (if ?b then _ else _) _ _ _ => destruct b eqn:?
  | |- wp (match ?x with _ => _ end) _ _ _ => destruct x eqn:?
  | |- wp _ _ _ _ => progress autounfold with py_defs
  end; cbv beta.

Ltac wp_go := repeat wp_step.

(** ** The counter and the list *)

Lemma Size_app g d :
  Z.of_nat (List.length (CopyQueue g ++ [d])) = Size g + 1.
Proof. unfold Size. rewrite length_app. cbn [List.length]. lia. Qed.

Lemma callback_sync h g :
  counter_in_sync g ->
  wp (callback h) (fun _ => counter_in_sync) counter_in_sync g.
Proof.
  intros I. destruct h; cbn [callback]; wp_go.
  all: unfold counter_in_sync, Size in *; cbn.
  all: try assumption.
  all: try (rewrite Size_app; unfold Size; lia).
  all: match goal with H : CopyQueue _ = _ :: _ |- _ => rewrite H in I end.
  all: cbn [List.length] in I; lia.
Qed.

Lemma reachable_sync g : reachable g -> counter_in_sync g.
Proof.
  induction 1 as [|g h e _ IH]; [reflexivity|].
  pose proof (wp_run _ _ _ _ e (callback_sync h g IH)) as H.
  destruct (res (callback h g e)); exact H.
Qed.

(** Running events from a reachable state ends in a reachable state. *)
Lemma run_reachable evs : forall w,
  reachable (fst w) -> reachable (fst (run evs w)).
Proof.
  induction evs as [|ev evs IH]; intros w Hw; [exact Hw|].
  assert (Hs : reachable (fst (snd (step ev w)))).
  { destruct ev as [h|s]; cbn; [|exact Hw]. apply reach_step, Hw. }
  cbn [run]. destruct (fst (step ev w)); [apply IH|]; exact Hs.
Qed.

(** An event whose callback returns is followed by the next one. *)
Lemma run_cons_ok ev evs w :
  fst (step ev w) = Ok tt ->
  run (ev :: evs) w = run evs (snd (step ev w)).
Proof. intros H. cbn [run]. rewrite H. reflexivity. Qed.

(** The last element of a non-empty list, as line 53 and line 69 ask for
    it, is always there. *)
Lemma py_getitem_last {A} (l : list A) (d : A) :
  py_getitem (l ++ [d]) (Z.of_nat (List.length (l ++ [d])) - 1) = Some d.
Proof.
  unfold py_getitem. rewrite length_app. cbn [List.length].
  destruct (Z.leb_spec 0 (Z.of_nat (List.length l + 1) - 1)); [|lia].
  replace (Z.to_nat (Z.of_nat (List.length l + 1) - 1)) with (List.length l) by lia.
  rewrite nth_error_app2 by lia. rewrite Nat.sub_diag. reflexivity.
Qed.

Lemma py_getitem_last_cons {A} (x : A) (l : list A) :
  py_getitem (x :: l) (Z.of_nat (List.length (x :: l)) - 1) <> None.
Proof.
  destruct (exists_last (l := x :: l)) as (l' & d & ->); [discriminate|].
  rewrite py_getitem_last. discriminate.
Qed.

(** One ctrl+c in running mode, with text on the clipboard and no failing
    call, appends that text and counts it. *)
Lemma copy_event d g c t :
  QueueMode g = true ->
  let w := snd (step (Key OnCopy) (snd (step (Copied d) (g, mkEnv c [] t)))) in
  fst w = mkGlobals (CopyQueue g ++ [d]) (Qcount g + 1) (placeCount g) true /\
  clip (snd w) = Some d /\ faults (snd w) = [].
Proof.
  intros Hq. destruct g as [l q p m]. cbn in Hq. subst m.
  cbn. unfold fEnqueueCopyQueue, bind. cbn.
  rewrite py_getitem_last. cbn. auto.
Qed.

Lemma copy_event_ok d g c t :
  QueueMode g = true ->
  fst (step (Key OnCopy) (snd (step (Copied d) (g, mkEnv c [] t)))) = Ok tt.
Proof.
  intros Hq. destruct g as [l q p m]. cbn in Hq. subst m.
  cbn. unfold fEnqueueCopyQueue, bind. cbn.
  rewrite py_getitem_last. reflexivity.
Qed.

Lemma run_copies ds : forall g c t,
  QueueMode g = true ->
  let w := run (copies ds) (g, mkEnv c [] t) in
  fst w = mkGlobals (CopyQueue g ++ ds) (Qcount g + Z.of_nat (List.length ds))
                    (placeCount g) true.
Proof.
  induction ds as [|d ds IH]; intros g c t Hq.
  - destruct g as [l q p m]. cbn in *. subst m.
    rewrite app_nil_r, Z.add_0_r. reflexivity.
  - cbn [copies flat_map app].
    rewrite run_cons_ok by reflexivity.
    rewrite run_cons_ok by (apply copy_event_ok; exact Hq).
    pose proof (copy_event d g c t Hq) as (Hg & _ & Hf). cbv zeta in Hg, Hf.
    destruct (snd (step (Key OnCopy) (snd (step (Copied d) (g, mkEnv c [] t)))))
      as [g1 [c1 f1 t1]].
    cbn in Hg, Hf. subst g1 f1.
    specialize (IH (mkGlobals (CopyQueue g ++ [d]) (Qcount g + 1)
                              (placeCount g) true) c1 t1 eq_refl).
    cbv zeta in IH.
    fold (copies ds). rewrite IH. cbn.
    rewrite <- app_assoc. f_equal. lia.
Qed.

Lemma callback_head h g x xs :
  CopyQueue g = x :: xs ->
  wp (callback h) (fun _ => head_kept_or_popped x xs h)
     (head_kept_or_popped x xs h) g.
Proof.
  intros Hl. destruct h; cbn [callback]; wp_go.
  all: unfold head_kept_or_popped; cbn.
  all: try (left; exists []; rewrite app_nil_r; exact Hl).
  all: try (left; eexists [_]; rewrite Hl; reflexivity).
  all: right; split; [reflexivity|].
  all: congruence.
Qed.

(** C3. The counter [Qcount] equals [len(CopyQueue)] in every reachable
    state; each of the five callbacks keeps it so, in every environment and
    also when it raises; after the user copied the texts [ds] from the
    initial state the queue is exactly [ds] (so its size is the number of
    copies and the first text is at index 0); and a callback leaves the
    head of a non-empty queue in place unless it is ctrl+v taking it off. *)
Theorem C3_counter_equals_length :
  (forall g, reachable g -> Qcount g = Size g) /\
  (forall h g e,
      Qcount g = Size g ->
      Qcount (glob (callback h g e)) = Size (glob (callback h g e))) /\
  (forall ds c t,
      let g := fst (run (copies ds) (initGlobals, mkEnv c [] t)) in
      CopyQueue g = ds /\ Size g = Z.of_nat (List.length ds) /\
      Qcount g = Z.of_nat (List.length ds) /\
      py_getitem (CopyQueue g) 0 = hd_error ds) /\
  (forall h g e x xs,
      CopyQueue g = x :: xs ->
      head_kept_or_popped x xs h (glob (callback h g e))).
Proof.
  split; [exact reachable_sync|]. split; [|split].
  - intros h g e I.
    pose proof (wp_run _ _ _ _ e (callback_sync h g I)) as H.
    destruct (res (callback h g e)); exact H.
  - intros ds c t. cbv zeta.
    rewrite (run_copies ds initGlobals c t eq_refl). cbn.
    unfold Size. cbn. repeat split.
  - intros h g e x xs Hl.
    pose proof (wp_run _ _ _ _ e (callback_head h g x xs Hl)) as H.
    destruct (res (callback h g e)); exact H.
Qed.

Lemma C3_counter_equals_length_witness :
  let g := fst (run (copies ["hello"; "world"] ++ [Key OnPaste])
                    (initGlobals, quiet)) in
  (reachable g /\ Qcount g = Size g) /\
  (Qcount g = Size g /\
   Qcount (glob (callback OnCopy g quiet)) =
   Size (glob (callback OnCopy g quiet))) /\
  (CopyQueue g = ["world"] /\
   head_kept_or_popped "world" [] OnPaste (glob (callback OnPaste g quiet))).
Proof.
  cbv zeta. split; [|split]; split.
  - apply run_reachable. exact reach_init.
  - apply (proj1 C3_counter_equals_length).
    apply run_reachable. exact reach_init.
  - reflexivity.
  - apply (proj1 (proj2 C3_counter_equals_length)). reflexivity.
  - reflexivity.
  - apply (proj2 (proj2 (proj2 C3_counter_equals_length))). reflexivity.
Defined.

(** ** Navigation leaves the queue alone *)

Lemma fNextInQueue_frame g :
  wp fNextInQueue (fun _ => nav_frame g) (nav_frame g) g.
Proof. wp_go; repeat split. Qed.

Lemma fPrevInQueue_frame g :
  wp fPrevInQueue (fun _ => nav_frame g) (nav_frame g) g.
Proof. wp_go; repeat split. Qed.

(** C8. ctrl+right and ctrl+left never change the list, the counter or the
    mode flag, in any state and any environment, whether they return or
    raise: only the cursor and the clipboard can differ afterwards.  From
    the queue ["x"] with the cursor at 0, ctrl+left changes nothing at
    all: no cursor move and no clipboard call. *)
Theorem C8_navigation_frame :
  (forall g e, nav_frame g (glob (fNextInQueue g e))) /\
  (forall g e, nav_frame g (glob (fPrevInQueue g e))) /\
  (forall m e,
      fPrevInQueue (mkGlobals ["x"] 1 0 m) e =
      mkOut (Ok tt) (mkGlobals ["x"] 1 0 m) e).
Proof.
  split; [|split].
  - intros g e. pose proof (wp_run _ _ _ _ e (fNextInQueue_frame g)) as H.
    destruct (res (fNextInQueue g e)); exact H.
  - intros g e. pose proof (wp_run _ _ _ _ e (fPrevInQueue_frame g)) as H.
    destruct (res (fPrevInQueue g e)); exact H.
  - intros m e. reflexivity.
Qed.

(** ** ctrl+v and the cursor *)

Lemma fDequeueCopyQueue_cursor g :
  wp fDequeueCopyQueue (fun _ g' => placeCount g' = placeCount g)
     (fun g' => placeCount g' = placeCount g) g.
Proof. wp_go; reflexivity. Qed.

Lemma fDequeueCopyQueue_raise g :
  wp fDequeueCopyQueue (fun _ _ => True) (fun g' => g' = g) g.
Proof.
  wp_go; try exact I; try reflexivity.
  (* the only raise after the pop would be the subscript of line 69, which
     asks for the last element of a non-empty list *)
  exfalso.
  match goal with
  | Hl : CopyQueue ?g' = _ :: _, Hn : py_getitem (CopyQueue ?g') _ = None |- _ =>
      rewrite Hl in Hn; exact (py_getitem_last_cons _ _ Hn)
  end.
Qed.

(** C9. ctrl+v never touches the cursor: in every state and environment
    [placeCount] is the same number after [fDequeueCopyQueue] as before.
    In particular, when the head [x] is taken off a queue [x :: xs] the
    cursor keeps its value [p] although every item moved down by one. *)
Theorem C9_dequeue_keeps_cursor :
  (forall g e, placeCount (glob (fDequeueCopyQueue g e)) = placeCount g) /\
  (forall x xs p c t,
      let g := mkGlobals (x :: xs) (Z.of_nat (List.length (x :: xs))) p true in
      let g' := glob (fDequeueCopyQueue g (mkEnv c [] t)) in
      CopyQueue g' = xs /\ placeCount g' = p).
Proof.
  split.
  - intros g e.
    pose proof (wp_run _ _ _ _ e (fDequeueCopyQueue_cursor g)) as H.
    destruct (res (fDequeueCopyQueue g e)); exact H.
  - intros x xs p c t. cbv zeta. unfold fDequeueCopyQueue, bind. cbn.
    destruct xs as [|y ys]; cbn; [auto|].
    destruct (py_getitem _ _); cbn; auto.
Qed.


(** Case analysis on the fault schedule met by the (at most four)
    clipboard calls of one callback. *)
Ltac split_faults f :=
  destruct f as [|[|] [|[|] [|[|] [|[|] f]]]].

Lemma fDequeueCopyQueue_mutates g e :
  glob (fDequeueCopyQueue g e) <> g ->
  exists x,
    hd_error (CopyQueue g) = Some x /\
    res (fDequeueCopyQueue g e) = Ok tt /\
    trace (env (fDequeueCopyQueue g e)) =
      trace e ++ [COpenClipboard; CEmptyClipboard; CSetClipboardText x;
                  CCloseClipboard] /\
    clip (env (fDequeueCopyQueue g e)) = Some x /\
    glob (fDequeueCopyQueue g e) =
      mkGlobals (tl (CopyQueue g)) (Qcount g - 1) (placeCount g) (QueueMode g).
Proof.
  destruct g as [l q p m], e as [c f t].
  unfold fDequeueCopyQueue, bind. cbn.
  destruct m; cbn; [|congruence].
  destruct (0 <? q); cbn; [|congruence].
  destruct l as [|x xs]; cbn; [congruence|].
  split_faults f; cbn; try congruence.
  all: intros _; exists x.
  all: destruct xs as [|y ys]; cbn;
    [|destruct (py_getitem (y :: ys) _) eqn:Hlast;
      [|exfalso; exact (py_getitem_last_cons _ _ Hlast)]];
    cbn; rewrite <- !app_assoc; repeat split.
Qed.

(** C10. ctrl+v changes the queue only after its clipboard calls are done.
    Whenever [fDequeueCopyQueue] raises (a failing clipboard call, or a
    failing subscript), the globals, and so the list and the counter, are
    exactly as before.  And whenever it changes the globals at all, it
    returned normally, the four clipboard calls open / empty / set text /
    close were all issued with the old head as the text, the clipboard
    holds that head, and the only change is the head taken off and the
    counter lowered by one. *)
Theorem C10_dequeue_after_clipboard :
  (forall g e x,
      res (fDequeueCopyQueue g e) = Raise x ->
      glob (fDequeueCopyQueue g e) = g) /\
  (forall g e,
      glob (fDequeueCopyQueue g e) <> g ->
      exists x,
        hd_error (CopyQueue g) = Some x /\
        res (fDequeueCopyQueue g e) = Ok tt /\
        trace (env (fDequeueCopyQueue g e)) =
          trace e ++ [COpenClipboard; CEmptyClipboard; CSetClipboardText x;
                      CCloseClipboard] /\
        clip (env (fDequeueCopyQueue g e)) = Some x /\
        glob (fDequeueCopyQueue g e) =
          mkGlobals (tl (CopyQueue g)) (Qcount g - 1) (placeCount g)
                    (QueueMode g)).
Proof.
  split.
  - intros g e x Hr.
    pose proof (wp_run _ _ _ _ e (fDequeueCopyQueue_raise g)) as H.
    rewrite Hr in H. exact H.
  - exact fDequeueCopyQueue_mutates.
Qed.

Lemma C10_dequeue_after_clipboard_witness :
  let g := mkGlobals ["a"; "b"] 2 0 true in
  let e := mkEnv (Some "z") [false; false; true] [] in
  (res (fDequeueCopyQueue g e) = Raise pywintypes_error /\
   glob (fDequeueCopyQueue g e) = g) /\
  (glob (fDequeueCopyQueue g quiet) <> g /\
   exists x,
     hd_error (CopyQueue g) = Some x /\
     res (fDequeueCopyQueue g quiet) = Ok tt /\
     trace (env (fDequeueCopyQueue g quiet)) =
       trace quiet ++ [COpenClipboard; CEmptyClipboard; CSetClipboardText x;
                       CCloseClipboard] /\
     clip (env (fDequeueCopyQueue g quiet)) = Some x /\
     glob (fDequeueCopyQueue g quiet) =
       mkGlobals (tl (CopyQueue g)) (Qcount g - 1) (placeCount g)
                 (QueueMode g)).
Proof.
  cbv zeta. split; [split; [reflexivity|] | split; [discriminate|]].
  - apply (proj1 C10_dequeue_after_clipboard _ _ pywintypes_error).
    reflexivity.
  - apply (proj2 C10_dequeue_after_clipboard). discriminate.
Defined.

(** ** Pause *)

Lemma fNextInQueue_mode m g e :
  fNextInQueue (set_QueueMode m g) e = with_mode m (fNextInQueue g e).
Proof.
  destruct g as [l q p m0], e as [c f t].
  unfold fNextInQueue, with_mode, set_QueueMode, bind. cbn.
  destruct ((0 <? q) && (p <? Z.of_nat (List.length l) - 1)); [|reflexivity].
  split_faults f; cbn; try reflexivity.
  all: destruct (py_getitem l (p + 1)); reflexivity.
Qed.

Lemma fPrevInQueue_mode m g e :
  fPrevInQueue (set_QueueMode m g) e = with_mode m (fPrevInQueue g e).
Proof.
  destruct g as [l q p m0], e as [c f t].
  unfold fPrevInQueue, with_mode, set_QueueMode, bind. cbn.
  destruct ((0 <? q) && (0 <? p)); [|reflexivity].
  split_faults f; cbn; try reflexivity.
  all: destruct (py_getitem l (p - 1)); reflexivity.
Qed.

(** C4. While paused ([QueueMode] false) ctrl+c and ctrl+v return at once:
    globals, clipboard and call record are untouched, so there is no
    clipboard read, no append, no pop and no clipboard write.  ctrl+right
    and ctrl+left never look at the mode: run with the flag set either
    way they do the same thing and leave the flag as they found it. *)
Theorem C4_pause_gating :
  (forall g e,
      QueueMode g = false ->
      fEnqueueCopyQueue g e = mkOut (Ok tt) g e /\
      fDequeueCopyQueue g e = mkOut (Ok tt) g e) /\
  (forall m g e,
      fNextInQueue (set_QueueMode m g) e = with_mode m (fNextInQueue g e) /\
      fPrevInQueue (set_QueueMode m g) e = with_mode m (fPrevInQueue g e)).
Proof.
  split.
  - intros [l q p m] e Hm. cbn in Hm. subst m. split; reflexivity.
  - intros m g e. split; [apply fNextInQueue_mode | apply fPrevInQueue_mode].
Qed.

Lemma C4_pause_gating_witness :
  let g := mkGlobals ["a"; "b"] 2 0 false in
  let e := mkEnv (Some "z") [] [] in
  fEnqueueCopyQueue g e = mkOut (Ok tt) g e /\
  fDequeueCopyQueue g e = mkOut (Ok tt) g e.
Proof.
  cbv zeta. apply (proj1 C4_pause_gating). reflexivity.
Defined.

(** ** The callbacks on a working clipboard *)

(** ctrl+c in running mode with [d] on the clipboard. *)
Lemma fEnqueueCopyQueue_ok g d t :
  QueueMode g = true ->
  fEnqueueCopyQueue g (mkEnv (Some d) [] t) =
  mkOut (Ok tt)
        (mkGlobals (CopyQueue g ++ [d]) (Qcount g + 1) (placeCount g) true)
        (mkEnv (Some d) []
               (t ++ [CSleep 100; COpenClipboard; CGetClipboardData;
                      CCloseClipboard])).
Proof.
  destruct g as [l q p m]. cbn. intros ->.
  unfold fEnqueueCopyQueue, bind. cbn.
  rewrite py_getitem_last. cbn. rewrite <- !app_assoc. reflexivity.
Qed.

(** ctrl+v in running mode on a non-empty queue. *)
Lemma fDequeueCopyQueue_ok g c t x xs :
  QueueMode g = true -> 0 < Qcount g -> CopyQueue g = x :: xs ->
  fDequeueCopyQueue g (mkEnv c [] t) =
  mkOut (Ok tt)
        (mkGlobals xs (Qcount g - 1) (placeCount g) true)
        (mkEnv (Some x) []
               (t ++ [COpenClipboard; CEmptyClipboard; CSetClipboardText x;
                      CCloseClipboard])).
Proof.
  destruct g as [l q p m]. cbn. intros -> Hq ->.
  unfold fDequeueCopyQueue, bind. cbn.
  destruct (Z.ltb_spec 0 q); [|lia]. cbn.
  destruct xs as [|y ys]; cbn;
    [|destruct (py_getitem (y :: ys) _) eqn:Hlast;
      [|exfalso; exact (py_getitem_last_cons _ _ Hlast)]];
    cbn; rewrite <- !app_assoc; reflexivity.
Qed.

(** ctrl+right when the guard of line 80 passes and the subscript of line
    85 finds [x]. *)
Lemma fNextInQueue_moves g c t x :
  (0 <? Qcount g) && (placeCount g <? Size g - 1) = true ->
  py_getitem (CopyQueue g) (placeCount g + 1) = Some x ->
  fNextInQueue g (mkEnv c [] t) =
  mkOut (Ok tt) (set_placeCount (placeCount g + 1) g)
        (mkEnv (Some x) []
               (t ++ [COpenClipboard; CEmptyClipboard; CSetClipboardText x;
                      CCloseClipboard; CSleep 100])).
Proof.
  destruct g as [l q p m]. unfold Size. cbn. intros Hg Hx.
  unfold fNextInQueue, bind. cbn. rewrite Hg. cbn. rewrite Hx. cbn.
  unfold sleep. cbn. rewrite <- !app_assoc. reflexivity.
Qed.

(** ctrl+right with the cursor at or beyond the last index: nothing
    happens. *)
Lemma fNextInQueue_at_tail g e :
  Size g - 1 <= placeCount g ->
  fNextInQueue g e = mkOut (Ok tt) g e.
Proof.
  destruct g as [l q p m]. unfold Size. cbn. intros Hp.
  unfold fNextInQueue, bind. cbn.
  destruct (Z.ltb_spec p (Z.of_nat (List.length l) - 1)); [lia|].
  rewrite andb_false_r. reflexivity.
Qed.

(** ** The queue operations and the scenarios *)

(** With the counter in sync, ctrl+v never ends with a subscript or a pop
    missing the list, whichever clipboard calls fail. *)
Lemma fDequeueCopyQueue_no_IndexError g e :
  counter_in_sync g -> res (fDequeueCopyQueue g e) <> Raise IndexError.
Proof.
  destruct g as [l q p m], e as [c f t].
  unfold counter_in_sync, Size. cbn. intros ->.
  unfold fDequeueCopyQueue, bind. cbn.
  destruct m; cbn; [|discriminate].
  destruct l as [|x xs]; [cbn; discriminate|].
  change (0 <? Z.of_nat (List.length (x :: xs))) with true. cbn.
  split_faults f; cbn; try discriminate.
  all: destruct xs as [|y ys]; cbn; try discriminate.
  all: destruct (py_getitem (y :: ys) _) eqn:Hlast;
    [cbn; discriminate | exfalso; exact (py_getitem_last_cons _ _ Hlast)].
Qed.

(** C5. The pop of lines 64-65 on an empty list fails (Python's
    [IndexError], the error the specification calls EmptyQueue) and leaves
    globals and environment exactly as they were; on a non-empty list it
    takes the head off, yields it, and lowers the counter, so the size goes
    down by exactly one.  The callback guards the pop: with [Qcount] at 0
    ctrl+v does nothing and returns normally, and in no reachable state
    does ctrl+v end with that failure.  On a non-empty queue whose counter
    is in sync, in running mode on a working clipboard, ctrl+v writes the
    head to the clipboard and takes it off: the list is the old tail, the
    counter is one lower and the size goes down by exactly one. *)
Theorem C5_pop_front :
  (forall g e,
      Size g = 0 ->
      PopFront g e = mkOut (Raise IndexError) g e) /\
  (forall g e x xs,
      CopyQueue g = x :: xs ->
      PopFront g e =
        mkOut (Ok x) (mkGlobals xs (Qcount g - 1) (placeCount g) (QueueMode g)) e
      /\ Size (glob (PopFront g e)) = Size g - 1) /\
  (forall g e,
      Qcount g = 0 ->
      fDequeueCopyQueue g e = mkOut (Ok tt) g e) /\
  (forall g c t x xs,
      QueueMode g = true -> Qcount g = Size g -> CopyQueue g = x :: xs ->
      fDequeueCopyQueue g (mkEnv c [] t) =
        mkOut (Ok tt) (mkGlobals xs (Qcount g - 1) (placeCount g) true)
              (mkEnv (Some x) []
                     (t ++ [COpenClipboard; CEmptyClipboard;
                            CSetClipboardText x; CCloseClipboard]))
      /\ Size (glob (fDequeueCopyQueue g (mkEnv c [] t))) = Size g - 1) /\
  (forall g e,
      reachable g -> res (fDequeueCopyQueue g e) <> Raise IndexError).
Proof.
  split; [|split; [|split; [|split]]].
  - intros [l q p m] e Hs. unfold Size in Hs. cbn in Hs.
    destruct l; [reflexivity | discriminate].
  - intros [l q p m] e x xs Hl. cbn in Hl. subst l.
    assert (H : PopFront (mkGlobals (x :: xs) q p m) e =
                mkOut (Ok x) (mkGlobals xs (q - 1) p m) e) by reflexivity.
    split; [exact H|]. rewrite H. unfold Size.
    cbn [glob CopyQueue List.length]. lia.
  - intros [l q p m] e Hq. cbn in Hq. subst q.
    destruct m; reflexivity.
  - intros g c t x xs Hm Hs Hl.
    assert (Hq : 0 < Qcount g).
    { rewrite Hs. unfold Size. rewrite Hl. cbn [List.length]. lia. }
    rewrite (fDequeueCopyQueue_ok g c t x xs Hm Hq Hl).
    split; [reflexivity|]. unfold Size. rewrite Hl.
    cbn [glob CopyQueue List.length]. lia.
  - intros g e Hr. apply fDequeueCopyQueue_no_IndexError, reachable_sync, Hr.
Qed.

Lemma C5_pop_front_witness :
  PopFront initGlobals quiet = mkOut (Raise IndexError) initGlobals quiet /\
  (let g := mkGlobals ["a"; "b"] 2 1 true in
   PopFront g quiet = mkOut (Ok "a") (mkGlobals ["b"] 1 1 true) quiet /\
   Size (glob (PopFront g quiet)) = Size g - 1) /\
  fDequeueCopyQueue initGlobals quiet = mkOut (Ok tt) initGlobals quiet /\
  (let g := mkGlobals ["a"; "b"] 2 1 true in
   fDequeueCopyQueue g (mkEnv (Some "z") [] []) =
     mkOut (Ok tt) (mkGlobals ["b"] (Qcount g - 1) (placeCount g) true)
           (mkEnv (Some "a") []
                  ([] ++ [COpenClipboard; CEmptyClipboard;
                          CSetClipboardText "a"; CCloseClipboard]))
   /\ Size (glob (fDequeueCopyQueue g (mkEnv (Some "z") [] []))) = Size g - 1) /\
  (let g := fst (run (copies ["a"; "b"]) (initGlobals, quiet)) in
   reachable g /\
   res (fDequeueCopyQueue g (mkEnv None [false; true] [])) <> Raise IndexError).
Proof.
  split; [|split; [|split; [|split]]].
  - apply (proj1 C5_pop_front). reflexivity.
  - apply (proj1 (proj2 C5_pop_front) (mkGlobals ["a"; "b"] 2 1 true)).
    reflexivity.
  - apply (proj1 (proj2 (proj2 C5_pop_front))). reflexivity.
  - apply (proj1 (proj2 (proj2 (proj2 C5_pop_front)))
                 (mkGlobals ["a"; "b"] 2 1 true)); reflexivity.
  - cbv zeta. split; [apply run_reachable; exact reach_init|].
    apply (proj2 (proj2 (proj2 (proj2 C5_pop_front)))).
    apply run_reachable. exact reach_init.
Defined.

(** C6. From the queue ["a"; "b"; "c"] with the cursor at 0 and a working
    clipboard: the first ctrl+right moves the cursor to 1 and puts "b" on
    the clipboard, the second moves it to 2 and puts "c" there, and the
    third changes nothing: it returns with the cursor still 2, the
    clipboard still "c" and no clipboard call issued. *)
Theorem C6_scenario_next :
  forall (m : bool) (c : option string) (t : list Call),
    let g0 := mkGlobals ["a"; "b"; "c"] 3 0 m in
    let o1 := fNextInQueue g0 (mkEnv c [] t) in
    let o2 := fNextInQueue (glob o1) (env o1) in
    let o3 := fNextInQueue (glob o2) (env o2) in
    (res o1 = Ok tt /\ glob o1 = set_placeCount 1 g0 /\
     clip (env o1) = Some "b" /\
     trace (env o1) = t ++ [COpenClipboard; CEmptyClipboard;
                            CSetClipboardText "b"; CCloseClipboard;
                            CSleep 100]) /\
    (res o2 = Ok tt /\ glob o2 = set_placeCount 2 g0 /\
     clip (env o2) = Some "c" /\
     trace (env o2) = trace (env o1) ++
                      [COpenClipboard; CEmptyClipboard;
                       CSetClipboardText "c"; CCloseClipboard; CSleep 100]) /\
    (o3 = mkOut (Ok tt) (glob o2) (env o2) /\
     placeCount (glob o3) = 2 /\ clip (env o3) = Some "c" /\
     trace (env o3) = trace (env o2)).
Proof.
  intros m c t. cbv zeta.
  rewrite (fNextInQueue_moves (mkGlobals ["a"; "b"; "c"] 3 0 m) c t "b")
    by reflexivity.
  cbn [glob env res clip trace set_placeCount CopyQueue Qcount placeCount
       QueueMode Z.add Pos.add].
  rewrite (fNextInQueue_moves (mkGlobals ["a"; "b"; "c"] 3 1 m) _ _ "c")
    by reflexivity.
  cbn [glob env res clip trace set_placeCount CopyQueue Qcount placeCount
       QueueMode Z.add Pos.add].
  rewrite fNextInQueue_at_tail by (unfold Size; cbn; lia).
  repeat split.
Qed.

(** C7. Appending [x] to an empty queue and popping gives [x] back and
    restores the empty queue.  At the level of the callbacks: with [x] on
    the clipboard, ctrl+c on the empty queue makes the queue [x] (size 1),
    and the ctrl+v that follows writes exactly [x] to the clipboard and
    leaves the queue empty with size and counter 0. *)
Theorem C7_round_trip :
  (forall x p m e,
      let g0 := mkGlobals [] 0 p m in
      (Append x ;; PopFront) g0 e = mkOut (Ok x) g0 e) /\
  (forall x p t,
      let g0 := mkGlobals [] 0 p true in
      let o1 := fEnqueueCopyQueue g0 (mkEnv (Some x) [] t) in
      let o2 := fDequeueCopyQueue (glob o1) (env o1) in
      (res o1 = Ok tt /\ CopyQueue (glob o1) = [x] /\ Size (glob o1) = 1 /\
       Qcount (glob o1) = 1) /\
      (res o2 = Ok tt /\ clip (env o2) = Some x /\
       trace (env o2) = trace (env o1) ++
                        [COpenClipboard; CEmptyClipboard;
                         CSetClipboardText x; CCloseClipboard] /\
       glob o2 = g0 /\ Size (glob o2) = 0)).
Proof.
  split.
  - intros x p m e. reflexivity.
  - intros x p t. cbv zeta.
    rewrite (fEnqueueCopyQueue_ok (mkGlobals [] 0 p true)) by reflexivity.
    cbn [glob env res clip trace CopyQueue Qcount placeCount app Z.add].
    rewrite (fDequeueCopyQueue_ok (mkGlobals [x] 1 p true) _ _ x [])
      by reflexivity.
    repeat split.
Qed.

(** ** The cursor *)

(** Turns the guards met on the way into arithmetic facts. *)
Ltac guards :=
  repeat match goal with
         | H : (_ && _) = true |- _ => apply andb_prop in H; destruct H
         | H : (_ && _) = false |- _ => apply andb_false_iff in H; destruct H
         | H : (_ <? _) = true |- _ => apply Z.ltb_lt in H
         | H : (_ <? _) = false |- _ => apply Z.ltb_ge in H
         end.

(** Every callback but ctrl+v keeps the cursor an index of the list (0 on
    the empty list), in any environment. *)
Lemma callback_cursor_ok h g :
  h <> OnPaste -> cursor_ok g ->
  wp (callback h) (fun _ => cursor_ok) cursor_ok g.
Proof.
  intros Hh I. destruct h; [|congruence| | |]; cbn [callback]; wp_go.
  all: guards; unfold cursor_ok, Size in *; cbn; try rewrite length_app;
    cbn [List.length]; lia.
Qed.

(** No callback makes the cursor negative. *)
Lemma callback_cursor_nonneg h g :
  0 <= placeCount g ->
  wp (callback h) (fun _ g' => 0 <= placeCount g')
     (fun g' => 0 <= placeCount g') g.
Proof.
  intros I. destruct h; cbn [callback]; wp_go.
  all: guards; cbn; lia.
Qed.

Lemma reachable_cursor_nonneg g : reachable g -> 0 <= placeCount g.
Proof.
  induction 1 as [|g h e _ IH]; [cbn; lia|].
  pose proof (wp_run _ _ _ _ e (callback_cursor_nonneg h g IH)) as H.
  destruct (res (callback h g e)); exact H.
Qed.

(** An index between 0 and [len(l) - 1] is found. *)
Lemma py_getitem_in_range {A} (l : list A) (i : Z) :
  0 <= i <= Z.of_nat (List.length l) - 1 -> py_getitem l i <> None.
Proof.
  intros Hi. unfold py_getitem.
  destruct (Z.leb_spec 0 i); [|lia].
  apply nth_error_Some. lia.
Qed.

(** An index beyond [len(l) - 1] is not. *)
Lemma py_getitem_beyond {A} (l : list A) (i : Z) :
  Z.of_nat (List.length l) <= i -> py_getitem l i = None.
Proof.
  intros Hi. unfold py_getitem.
  destruct (Z.leb_spec 0 i); [|lia].
  apply nth_error_None. lia.
Qed.

(** Whatever the state, ctrl+right either changes no global or moves the
    cursor one up to an index of the list, provided the cursor was not
    negative. *)
Lemma fNextInQueue_lands_in_range g :
  0 <= placeCount g ->
  wp fNextInQueue
     (fun _ g' => g' = g \/
                  (placeCount g' = placeCount g + 1 /\ cursor_in_range g'))
     (fun g' => placeCount g' = placeCount g + 1 /\ cursor_in_range g') g.
Proof.
  intros I. wp_go; guards.
  all: try (left; reflexivity).
  all: try right; unfold cursor_in_range, Size; cbn; lia.
Qed.

(** ... and the subscript of line 85 always finds an element. *)
Lemma fNextInQueue_index_valid g :
  0 <= placeCount g ->
  (0 <? Qcount g) && (placeCount g <? Size g - 1) = true ->
  py_getitem (CopyQueue g) (placeCount g + 1) <> None.
Proof.
  intros I Hg. guards. unfold Size in *.
  apply py_getitem_in_range. lia.
Qed.

(** On an empty queue whose counter is in sync, navigation never reaches a
    subscript. *)
Lemma navigation_on_empty g e :
  Qcount g = Size g -> CopyQueue g = [] ->
  fNextInQueue g e = mkOut (Ok tt) g e /\
  fPrevInQueue g e = mkOut (Ok tt) g e.
Proof.
  destruct g as [l q p m]. unfold Size. cbn. intros -> ->. split; reflexivity.
Qed.

(** At the tail, any number of ctrl+right presses changes nothing. *)
Lemma fNextInQueue_tail_forever g e n :
  Size g - 1 <= placeCount g ->
  run (repeat (Key OnNext) n) (g, e) = (g, e).
Proof.
  intros Hp. induction n as [|n IH]; [reflexivity|].
  cbn [repeat run step callback fst snd].
  rewrite fNextInQueue_at_tail by exact Hp. cbn [res glob env]. exact IH.
Qed.

(** C1. The cursor does not stay inside the list.  After two copies, one
    ctrl+right and one ctrl+v the program is in a reachable state whose
    queue is ["b"] while the cursor is 1, outside [0, Size - 1].  After
    three copies, two ctrl+right and two ctrl+v the queue is ["c"], the
    cursor is 2, and ctrl+left moves it to 1, again outside [0, Size - 1]. *)
Theorem C1_cursor_leaves_range :
  (let g := fst (run stale_cursor_session (initGlobals, quiet)) in
   reachable g /\ g = mkGlobals ["b"] 1 1 true /\
   CopyQueue g <> [] /\ ~ cursor_in_range g) /\
  (let w := run short_queue_session (initGlobals, quiet) in
   let g' := glob (fPrevInQueue (fst w) (snd w)) in
   reachable (fst w) /\ fst w = mkGlobals ["c"] 1 2 true /\
   reachable g' /\ g' = mkGlobals ["c"] 1 1 true /\ ~ cursor_in_range g').
Proof.
  split; cbv zeta.
  - split; [apply run_reachable; exact reach_init|].
    assert (H : fst (run stale_cursor_session (initGlobals, quiet))
                = mkGlobals ["b"] 1 1 true) by (vm_compute; reflexivity).
    rewrite H. split; [reflexivity|]. split; [discriminate|].
    unfold cursor_in_range, Size. cbn. lia.
  - split; [apply run_reachable; exact reach_init|].
    split; [vm_compute; reflexivity|].
    split; [apply (reach_step _ OnPrev), run_reachable; exact reach_init|].
    assert (H : glob (fPrevInQueue
                        (fst (run short_queue_session (initGlobals, quiet)))
                        (snd (run short_queue_session (initGlobals, quiet))))
                = mkGlobals ["c"] 1 1 true) by (vm_compute; reflexivity).
    rewrite H. split; [reflexivity|].
    unfold cursor_in_range, Size. cbn. lia.
Qed.

(** With a working clipboard, ctrl+left from any cursor beyond the list
    (more than one past the last index) raises on line 96, after the
    cursor was lowered and the clipboard opened and emptied. *)
Lemma fPrevInQueue_beyond_raises g c t :
  0 < Qcount g -> Size g < placeCount g ->
  fPrevInQueue g (mkEnv c [] t) =
  mkOut (Raise IndexError) (set_placeCount (placeCount g - 1) g)
        (mkEnv None [] (t ++ [COpenClipboard; CEmptyClipboard])).
Proof.
  destruct g as [l q p m]. unfold Size. cbn. intros Hq Hp.
  unfold fPrevInQueue, bind. cbn.
  destruct (Z.ltb_spec 0 q); [|lia].
  destruct (Z.ltb_spec 0 p); [|lia]. cbn.
  rewrite py_getitem_beyond by lia. cbn.
  rewrite <- !app_assoc. reflexivity.
Qed.

(** C2. The subscript of ctrl+left can miss the list.  After three copies,
    two ctrl+right and two ctrl+v the program is in the reachable state
    queue ["c"], counter 1, cursor 2.  There the guard of line 92 passes,
    the cursor is lowered to 1, the clipboard is opened and emptied, and
    [CopyQueue[1]] raises [IndexError]: the callback ends with the
    clipboard emptied and never closed. *)
Theorem C2_prev_index_error :
  let w := run short_queue_session (initGlobals, quiet) in
  let g := fst w in
  let o := fPrevInQueue g (snd w) in
  reachable g /\ g = mkGlobals ["c"] 1 2 true /\
  (0 <? Qcount g) && (0 <? placeCount g) = true /\
  py_getitem (CopyQueue g) (placeCount g - 1) = None /\
  res o = Raise IndexError /\
  glob o = mkGlobals ["c"] 1 1 true /\
  clip (env o) = None /\
  trace (env o) = trace (snd w) ++ [COpenClipboard; CEmptyClipboard].
Proof.
  cbv zeta. split; [apply run_reachable; exact reach_init|].
  repeat split; vm_compute; reflexivity.
Qed.

(** No callback catches anything: when the first clipboard call of ctrl+c
    fails, the exception leaves the callback (what happens to it then is up
    to the [keyboard] package). *)
Lemma fEnqueueCopyQueue_lets_errors_out g c f t :
  QueueMode g = true ->
  fEnqueueCopyQueue g (mkEnv c (true :: f) t) =
  mkOut (Raise pywintypes_error) g
        (mkEnv c f (t ++ [CSleep 100; COpenClipboard])).
Proof.
  destruct g as [l q p m]. cbn. intros ->.
  unfold fEnqueueCopyQueue, bind. cbn. rewrite <- !app_assoc. reflexivity.
Qed.

(** * Further properties of the module *)

(** ** ctrl+b *)

(** The pause callback flips the mode flag and does nothing else but wait
    one second: in every state and environment it returns normally, leaves
    the list, the counter and the cursor alone, issues no clipboard call and
    consumes no entry of the fault schedule; [fToggleQueueMode] returns the
    new flag; and two presses in a row give back the globals exactly. *)
Theorem fPauseProg_toggles :
  (forall g e,
      fToggleQueueMode g e =
      mkOut (Ok (negb (QueueMode g))) (set_QueueMode (negb (QueueMode g)) g) e) /\
  (forall g e,
      fPauseProg g e =
      mkOut (Ok tt) (set_QueueMode (negb (QueueMode g)) g)
            (mkEnv (clip e) (faults e) (trace e ++ [CSleep 1000]))) /\
  (forall g e,
      run [Key OnPause; Key OnPause] (g, e) =
      (g, mkEnv (clip e) (faults e) (trace e ++ [CSleep 1000; CSleep 1000]))).
Proof.
  split; [|split].
  - intros [l q p [|]] e; reflexivity.
  - intros [l q p [|]] e; reflexivity.
  - intros [l q p [|]] [c f t]; cbn; rewrite <- app_assoc; reflexivity.
Qed.

(** ** The counter helpers *)

(** Each of the four counter functions undoes its opposite: add then
    subtract (and subtract then add) on [Qcount], and likewise on
    [placeCount], returns the value the counter had and leaves globals and
    environment exactly as they were. *)
Theorem counter_helpers_cancel :
  forall g e,
    (fAddCounter ;; fSubtractCounter) g e = mkOut (Ok (Qcount g)) g e /\
    (fSubtractCounter ;; fAddCounter) g e = mkOut (Ok (Qcount g)) g e /\
    (fPlaceCountAddCounter ;; fPlaceCountSubtractCounter) g e =
      mkOut (Ok (placeCount g)) g e /\
    (fPlaceCountSubtractCounter ;; fPlaceCountAddCounter) g e =
      mkOut (Ok (placeCount g)) g e.
Proof.
  intros [l q p m] e. cbn.
  replace (q + 1 - 1) with q by lia. replace (q - 1 + 1) with q by lia.
  replace (p + 1 - 1) with p by lia. replace (p - 1 + 1) with p by lia.
  repeat split.
Qed.

(** ** First in, first out *)

Lemma run_copies_then ds rest : forall g c t,
  QueueMode g = true ->
  run (copies ds ++ rest) (g, mkEnv c [] t) =
  run rest
      (mkGlobals (CopyQueue g ++ ds) (Qcount g + Z.of_nat (List.length ds))
                 (placeCount g) true,
       mkEnv (clip_after ds c) [] (t ++ flat_map (fun _ => copy_calls) ds)).
Proof.
  induction ds as [|d ds IH]; intros g c t Hq.
  - destruct g as [l q p m]. cbn in *. subst m.
    rewrite !app_nil_r, Z.add_0_r. reflexivity.
  - cbn [copies flat_map app].
    rewrite run_cons_ok by reflexivity.
    rewrite run_cons_ok by (apply copy_event_ok; exact Hq).
    cbn [step callback fst snd faults trace].
    rewrite (fEnqueueCopyQueue_ok g d t Hq). cbn [res glob env snd].
    fold (copies ds). rewrite IH by reflexivity.
    cbn [CopyQueue Qcount placeCount clip_after fold_left List.length].
    unfold copy_calls. rewrite <- !app_assoc. cbn [app].
    do 3 f_equal. lia.
Qed.

Lemma run_pastes ds : forall p c t,
  run (repeat (Key OnPaste) (List.length ds))
      (mkGlobals ds (Z.of_nat (List.length ds)) p true, mkEnv c [] t) =
  (mkGlobals [] 0 p true,
   mkEnv (clip_after ds c) [] (t ++ flat_map paste_calls ds)).
Proof.
  induction ds as [|x xs IH]; intros p c t.
  - cbn. rewrite app_nil_r. reflexivity.
  - assert (Hd : fDequeueCopyQueue
                   (mkGlobals (x :: xs) (Z.of_nat (List.length (x :: xs))) p true)
                   (mkEnv c [] t) =
                 mkOut (Ok tt)
                       (mkGlobals xs (Z.of_nat (List.length xs)) p true)
                       (mkEnv (Some x) [] (t ++ paste_calls x))).
    { rewrite (fDequeueCopyQueue_ok _ c t x xs)
        by (cbn [QueueMode Qcount CopyQueue List.length]; try reflexivity; lia).
      cbn [Qcount placeCount List.length].
      replace (Z.of_nat (S (List.length xs)) - 1)
        with (Z.of_nat (List.length xs)) by lia.
      reflexivity. }
    cbn [List.length repeat].
    rewrite run_cons_ok
      by (cbn [step callback fst snd]; cbn [List.length] in Hd; rewrite Hd;
          reflexivity).
    cbn [step callback fst snd]. cbn [List.length] in Hd. rewrite Hd.
    cbn [res glob env snd].
    rewrite IH. cbn [flat_map clip_after fold_left].
    rewrite <- !app_assoc. reflexivity.
Qed.

(** The queue is first in, first out.  In running mode on a working
    clipboard, as many ctrl+v presses as there are items write the items
    to the clipboard in queue order, oldest first, and empty the queue and
    the counter without moving the cursor.  Started from the initial
    state, copying the texts [ds] and pasting as many times replays [ds] in
    the order they were copied and ends in the initial globals. *)
Theorem queue_is_fifo :
  (forall ds p c t,
      run (repeat (Key OnPaste) (List.length ds))
          (mkGlobals ds (Z.of_nat (List.length ds)) p true, mkEnv c [] t) =
      (mkGlobals [] 0 p true,
       mkEnv (clip_after ds c) [] (t ++ flat_map paste_calls ds))) /\
  (forall ds c t,
      run (copies ds ++ repeat (Key OnPaste) (List.length ds))
          (initGlobals, mkEnv c [] t) =
      (initGlobals,
       mkEnv (clip_after ds (clip_after ds c)) []
             (t ++ flat_map (fun _ => copy_calls) ds
                ++ flat_map paste_calls ds))).
Proof.
  split; [exact run_pastes|].
  intros ds c t.
  rewrite (run_copies_then ds _ initGlobals c t eq_refl).
  cbn [CopyQueue Qcount placeCount initGlobals app Z.add].
  rewrite run_pastes. rewrite <- app_assoc. reflexivity.
Qed.

(** ** Which callbacks can miss the list *)

Lemma fEnqueueCopyQueue_no_IndexError g e :
  res (fEnqueueCopyQueue g e) <> Raise IndexError.
Proof.
  destruct g as [l q p m], e as [c f t].
  unfold fEnqueueCopyQueue, bind. cbn.
  destruct m; cbn; [|discriminate].
  split_faults f; cbn; try discriminate.
  all: destruct c as [d|]; cbn; try discriminate.
  all: rewrite py_getitem_last; cbn; discriminate.
Qed.

Lemma fNextInQueue_no_IndexError g e :
  0 <= placeCount g -> res (fNextInQueue g e) <> Raise IndexError.
Proof.
  intros Hp.
  destruct (next_guard g) eqn:Hg.
  - pose proof (fNextInQueue_index_valid g Hp Hg) as Hx.
    destruct g as [l q p m], e as [c f t].
    unfold next_guard, Size in Hg. cbn in Hg, Hx.
    unfold fNextInQueue, bind. cbn. rewrite Hg. cbn.
    destruct (py_getitem l (p + 1)) as [x|] eqn:Hi; [|congruence].
    split_faults f; cbn; try rewrite Hi; cbn; discriminate.
  - destruct g as [l q p m].
    unfold next_guard, Size in Hg. cbn in Hg.
    unfold fNextInQueue, bind. cbn. rewrite Hg. cbn. discriminate.
Qed.

(** Of the five callbacks only ctrl+left can raise [IndexError]: in every
    reachable state and every environment, whichever clipboard calls fail,
    ctrl+c, ctrl+v, ctrl+b and ctrl+right never end with a subscript or a
    pop missing the list. *)
Theorem only_prev_raises_IndexError :
  forall g h e,
    reachable g -> h <> OnPrev ->
    res (callback h g e) <> Raise IndexError.
Proof.
  intros g h e Hr Hh. destruct h; cbn [callback].
  - apply fEnqueueCopyQueue_no_IndexError.
  - apply fDequeueCopyQueue_no_IndexError, reachable_sync, Hr.
  - destruct g as [l q p [|]]; cbn; discriminate.
  - apply fNextInQueue_no_IndexError, reachable_cursor_nonneg, Hr.
  - congruence.
Qed.

Lemma only_prev_raises_IndexError_witness :
  let g := fst (run short_queue_session (initGlobals, quiet)) in
  reachable g /\ OnNext <> OnPrev /\
  res (callback OnNext g quiet) <> Raise IndexError.
Proof.
  cbv zeta. split; [apply run_reachable; exact reach_init|].
  split; [discriminate|].
  apply only_prev_raises_IndexError; [|discriminate].
  apply run_reachable. exact reach_init.
Defined.

(** ** Stepping back and forth *)

(** ctrl+left when the guard of line 92 passes and the subscript of line
    96 finds [x], on a working clipboard. *)
Lemma fPrevInQueue_moves g c t x :
  prev_guard g = true ->
  py_getitem (CopyQueue g) (placeCount g - 1) = Some x ->
  fPrevInQueue g (mkEnv c [] t) =
  mkOut (Ok tt) (set_placeCount (placeCount g - 1) g)
        (mkEnv (Some x) []
               (t ++ [COpenClipboard; CEmptyClipboard; CSetClipboardText x;
                      CCloseClipboard; CSleep 100])).
Proof.
  destruct g as [l q p m]. unfold prev_guard. cbn. intros Hg Hx.
  unfold fPrevInQueue, bind. cbn. rewrite Hg. cbn. rewrite Hx. cbn.
  unfold sleep. cbn. rewrite <- !app_assoc. reflexivity.
Qed.

(** The cursor moves whatever the clipboard does.  In every state and
    every environment, after ctrl+right the cursor is one higher exactly
    when the guard of line 80 passed, and after ctrl+left one lower exactly
    when the guard of line 92 passed, whether the callback returned or
    raised.  So when the first clipboard call fails, the cursor has moved
    although nothing was written to the clipboard. *)
Theorem cursor_moves_before_clipboard :
  (forall g e,
      placeCount (glob (fNextInQueue g e)) =
      if next_guard g then placeCount g + 1 else placeCount g) /\
  (forall g e,
      placeCount (glob (fPrevInQueue g e)) =
      if prev_guard g then placeCount g - 1 else placeCount g) /\
  (forall g c f t,
      next_guard g = true ->
      fNextInQueue g (mkEnv c (true :: f) t) =
      mkOut (Raise pywintypes_error) (set_placeCount (placeCount g + 1) g)
            (mkEnv c f (t ++ [COpenClipboard]))).
Proof.
  split; [|split].
  - intros g e.
    assert (H : wp fNextInQueue
                   (fun _ g' => placeCount g' =
                      if next_guard g then placeCount g + 1 else placeCount g)
                   (fun g' => placeCount g' =
                      if next_guard g then placeCount g + 1 else placeCount g)
                   g).
    { unfold next_guard, Size.
      wp_go; reflexivity. }
    pose proof (wp_run _ _ _ _ e H) as H'.
    destruct (res (fNextInQueue g e)); exact H'.
  - intros g e.
    assert (H : wp fPrevInQueue
                   (fun _ g' => placeCount g' =
                      if prev_guard g then placeCount g - 1 else placeCount g)
                   (fun g' => placeCount g' =
                      if prev_guard g then placeCount g - 1 else placeCount g)
                   g).
    { unfold prev_guard.
      wp_go; reflexivity. }
    pose proof (wp_run _ _ _ _ e H) as H'.
    destruct (res (fPrevInQueue g e)); exact H'.
  - intros [l q p m] c f t. unfold next_guard, Size. cbn. intros Hg.
    unfold fNextInQueue, bind. cbn. rewrite Hg. reflexivity.
Qed.

Lemma cursor_moves_before_clipboard_witness :
  let g := mkGlobals ["a"; "b"] 2 0 true in
  next_guard g = true /\
  fNextInQueue g (mkEnv None [true] []) =
  mkOut (Raise pywintypes_error) (set_placeCount (placeCount g + 1) g)
        (mkEnv None [] ([] ++ [COpenClipboard])).
Proof.
  cbv zeta. split; [reflexivity|].
  apply (proj2 (proj2 cursor_moves_before_clipboard)). reflexivity.
Defined.

(** One step forward and one step back is a round trip, and so is one step
    back and one step forward: on a working clipboard, from a cursor that
    has a neighbour on that side, both callbacks return normally, the
    globals end exactly as they started, and the clipboard holds the item
    under the cursor. *)
Theorem next_prev_round_trip :
  (forall g c t,
      0 < Qcount g -> 0 <= placeCount g < Size g - 1 ->
      let o1 := fNextInQueue g (mkEnv c [] t) in
      let o2 := fPrevInQueue (glob o1) (env o1) in
      res o1 = Ok tt /\ res o2 = Ok tt /\ glob o2 = g /\
      clip (env o2) = py_getitem (CopyQueue g) (placeCount g) /\
      clip (env o2) <> None) /\
  (forall g c t,
      0 < Qcount g -> 0 < placeCount g <= Size g - 1 ->
      let o1 := fPrevInQueue g (mkEnv c [] t) in
      let o2 := fNextInQueue (glob o1) (env o1) in
      res o1 = Ok tt /\ res o2 = Ok tt /\ glob o2 = g /\
      clip (env o2) = py_getitem (CopyQueue g) (placeCount g) /\
      clip (env o2) <> None).
Proof.
  split; intros [l q p m] c t; unfold Size; cbn [CopyQueue Qcount placeCount];
    intros Hq Hp; cbv zeta.
  - destruct (py_getitem l (p + 1)) as [x1|] eqn:H1;
      [|exfalso; revert H1; apply py_getitem_in_range; lia].
    destruct (py_getitem l p) as [x0|] eqn:H0;
      [|exfalso; revert H0; apply py_getitem_in_range; lia].
    rewrite (fNextInQueue_moves (mkGlobals l q p m) c t x1);
      [| unfold Size; cbn;
         destruct (Z.ltb_spec 0 q); [|lia];
         destruct (Z.ltb_spec p (Z.of_nat (List.length l) - 1)); [reflexivity|lia]
       | exact H1 ].
    cbn [glob env res set_placeCount CopyQueue Qcount placeCount QueueMode].
    rewrite (fPrevInQueue_moves (mkGlobals l q (p + 1) m) _ _ x0);
      [| unfold prev_guard; cbn;
         destruct (Z.ltb_spec 0 q); [|lia];
         destruct (Z.ltb_spec 0 (p + 1)); [reflexivity|lia]
       | cbn; replace (p + 1 - 1) with p by lia; exact H0 ].
    cbn. replace (p + 1 - 1) with p by lia.
    repeat split; discriminate.
  - destruct (py_getitem l (p - 1)) as [x1|] eqn:H1;
      [|exfalso; revert H1; apply py_getitem_in_range; lia].
    destruct (py_getitem l p) as [x0|] eqn:H0;
      [|exfalso; revert H0; apply py_getitem_in_range; lia].
    rewrite (fPrevInQueue_moves (mkGlobals l q p m) c t x1);
      [| unfold prev_guard; cbn;
         destruct (Z.ltb_spec 0 q); [|lia];
         destruct (Z.ltb_spec 0 p); [reflexivity|lia]
       | exact H1 ].
    cbn [glob env res set_placeCount CopyQueue Qcount placeCount QueueMode].
    rewrite (fNextInQueue_moves (mkGlobals l q (p - 1) m) _ _ x0);
      [| unfold Size; cbn;
         destruct (Z.ltb_spec 0 q); [|lia];
         destruct (Z.ltb_spec (p - 1) (Z.of_nat (List.length l) - 1));
           [reflexivity|lia]
       | cbn; replace (p - 1 + 1) with p by lia; exact H0 ].
    cbn. replace (p - 1 + 1) with p by lia.
    repeat split; discriminate.
Qed.

Lemma next_prev_round_trip_witness :
  let g := mkGlobals ["a"; "b"; "c"] 3 1 true in
  (let o1 := fNextInQueue g quiet in
   let o2 := fPrevInQueue (glob o1) (env o1) in
   res o1 = Ok tt /\ res o2 = Ok tt /\ glob o2 = g /\
   clip (env o2) = py_getitem (CopyQueue g) (placeCount g) /\
   clip (env o2) <> None) /\
  (let o1 := fPrevInQueue g quiet in
   let o2 := fNextInQueue (glob o1) (env o1) in
   res o1 = Ok tt /\ res o2 = Ok tt /\ glob o2 = g /\
   clip (env o2) = py_getitem (CopyQueue g) (placeCount g) /\
   clip (env o2) <> None).
Proof.
  cbv zeta. split.
  - apply (proj1 next_prev_round_trip (mkGlobals ["a"; "b"; "c"] 3 1 true));
      unfold Size; cbn; lia.
  - apply (proj2 next_prev_round_trip (mkGlobals ["a"; "b"; "c"] 3 1 true));
      unfold Size; cbn; lia.
Defined.

(** ** When ctrl+left fails *)

(** On a working clipboard ctrl+left either returns normally or raises
    [IndexError], and it raises exactly when the counter is positive and
    the cursor is more than one past the last index of the list. *)
Theorem fPrevInQueue_IndexError_iff :
  forall g c t,
    (res (fPrevInQueue g (mkEnv c [] t)) = Raise IndexError <->
     0 < Qcount g /\ Size g < placeCount g) /\
    (res (fPrevInQueue g (mkEnv c [] t)) = Ok tt \/
     res (fPrevInQueue g (mkEnv c [] t)) = Raise IndexError).
Proof.
  intros g c t.
  destruct (Z_lt_le_dec 0 (Qcount g)) as [Hq|Hq];
    [destruct (Z_lt_le_dec (Size g) (placeCount g)) as [Hp|Hp]|].
  - rewrite fPrevInQueue_beyond_raises by assumption. cbn [res].
    split; [split; auto | right; reflexivity].
  - destruct (Z_lt_le_dec 0 (placeCount g)) as [Hp0|Hp0].
    + destruct (py_getitem (CopyQueue g) (placeCount g - 1)) as [x|] eqn:Hx;
        [|exfalso; revert Hx; apply py_getitem_in_range; unfold Size in Hp; lia].
      rewrite (fPrevInQueue_moves g c t x); [| |exact Hx].
      * cbn [res]. split; [split; [discriminate|lia] | left; reflexivity].
      * unfold prev_guard.
        destruct (Z.ltb_spec 0 (Qcount g)); [|lia].
        destruct (Z.ltb_spec 0 (placeCount g)); [reflexivity|lia].
    + destruct g as [l q p m]. cbn in *.
      unfold fPrevInQueue, bind. cbn.
      destruct (Z.ltb_spec 0 p); [lia|]. rewrite andb_false_r. cbn.
      split; [split; [discriminate|] | left; reflexivity].
      unfold Size. cbn. lia.
  - destruct g as [l q p m]. cbn in *.
    unfold fPrevInQueue, bind. cbn.
    destruct (Z.ltb_spec 0 q); [lia|]. cbn.
    split; [split; [discriminate|lia] | left; reflexivity].
Qed.

(** One ctrl+v alone never sets up that failure.  In running mode on a
    working clipboard, from a state whose counter agrees with the list and
    whose cursor is an index of the list, ctrl+v followed by ctrl+left both
    return normally: the head is gone, and the cursor ends as an index of
    the shortened list (0 when it is empty).  The failing ctrl+left of a
    stale cursor needs at least two ctrl+v. *)
Theorem prev_after_one_paste :
  forall g c t,
    QueueMode g = true -> counter_in_sync g -> cursor_in_range g ->
    let o1 := fDequeueCopyQueue g (mkEnv c [] t) in
    let o2 := fPrevInQueue (glob o1) (env o1) in
    res o1 = Ok tt /\ res o2 = Ok tt /\
    CopyQueue (glob o2) = tl (CopyQueue g) /\
    Qcount (glob o2) = Size (glob o2) /\
    cursor_ok (glob o2).
Proof.
  intros [l q p m] c t. unfold counter_in_sync, cursor_in_range, Size.
  cbn [CopyQueue Qcount placeCount QueueMode]. intros -> -> Hp. cbv zeta.
  destruct l as [|x xs]; [cbn [List.length] in Hp; lia|].
  rewrite (fDequeueCopyQueue_ok _ c t x xs)
    by (cbn [QueueMode Qcount CopyQueue List.length]; try reflexivity; lia).
  cbn [res glob env Qcount placeCount].
  replace (Z.of_nat (List.length (x :: xs)) - 1)
    with (Z.of_nat (List.length xs)) by (cbn [List.length]; lia).
  cbn [List.length] in Hp.
  destruct (prev_guard (mkGlobals xs (Z.of_nat (List.length xs)) p true))
    eqn:Hg.
  - assert (Hg' := Hg). unfold prev_guard in Hg'. cbn in Hg'. guards.
    destruct (py_getitem xs (p - 1)) as [y|] eqn:Hy;
      [|exfalso; revert Hy; apply py_getitem_in_range; lia].
    rewrite (fPrevInQueue_moves _ _ _ y Hg Hy).
    cbn [res glob set_placeCount CopyQueue Qcount placeCount QueueMode tl].
    unfold cursor_ok, Size.
    cbn [set_placeCount CopyQueue Qcount placeCount].
    repeat split; lia.
  - unfold prev_guard in Hg. cbn in Hg.
    unfold fPrevInQueue, bind. cbn. rewrite Hg. cbn.
    unfold cursor_ok, Size. cbn [CopyQueue Qcount placeCount].
    repeat split; guards; lia.
Qed.

Lemma prev_after_one_paste_witness :
  let g := mkGlobals ["a"; "b"; "c"] 3 2 true in
  let o1 := fDequeueCopyQueue g quiet in
  let o2 := fPrevInQueue (glob o1) (env o1) in
  res o1 = Ok tt /\ res o2 = Ok tt /\
  CopyQueue (glob o2) = tl (CopyQueue g) /\
  Qcount (glob o2) = Size (glob o2) /\
  cursor_ok (glob o2).
Proof.
  cbv zeta.
  apply (prev_after_one_paste (mkGlobals ["a"; "b"; "c"] 3 2 true) None []).
  - reflexivity.
  - reflexivity.
  - unfold cursor_in_range, Size. cbn. lia.
Defined.

(** ** ctrl+c and the clipboard *)

Lemma fEnqueueCopyQueue_cases g e :
  (res (fEnqueueCopyQueue g e) = Ok tt /\ QueueMode g = false /\
   glob (fEnqueueCopyQueue g e) = g /\ env (fEnqueueCopyQueue g e) = e) \/
  (exists x, res (fEnqueueCopyQueue g e) = Raise x /\
             glob (fEnqueueCopyQueue g e) = g /\
             clip (env (fEnqueueCopyQueue g e)) = clip e) \/
  (exists d, clip e = Some d /\ res (fEnqueueCopyQueue g e) = Ok tt /\
             glob (fEnqueueCopyQueue g e) =
               mkGlobals (CopyQueue g ++ [d]) (Qcount g + 1) (placeCount g)
                         (QueueMode g) /\
             clip (env (fEnqueueCopyQueue g e)) = clip e /\
             trace (env (fEnqueueCopyQueue g e)) = trace e ++ copy_calls).
Proof.
  destruct g as [l q p m], e as [c f t].
  unfold fEnqueueCopyQueue, bind. cbn.
  destruct m; cbn; [|left; auto].
  right.
  split_faults f; cbn; try (left; eexists; repeat split; fail).
  all: destruct c as [d|]; cbn; try (left; eexists; repeat split; fail).
  all: right; exists d; rewrite py_getitem_last; cbn.
  all: unfold copy_calls; rewrite <- !app_assoc; repeat split.
Qed.

(** ctrl+c in running mode with no text on a working clipboard. *)
Lemma fEnqueueCopyQueue_no_text g t :
  QueueMode g = true ->
  fEnqueueCopyQueue g (mkEnv None [] t) =
  mkOut (Raise TypeError) g
        (mkEnv None [] (t ++ [CSleep 100; COpenClipboard; CGetClipboardData])).
Proof.
  destruct g as [l q p m]. cbn. intros ->.
  unfold fEnqueueCopyQueue, bind. cbn. rewrite <- !app_assoc. reflexivity.
Qed.

(** ctrl+c only reads the clipboard and appends all or nothing.  In every
    state and environment the clipboard text is the same after the
    callback as before; if the callback ends with a failing clipboard call
    ([pywintypes.error]) or with no text to read ([TypeError]), the
    globals are unchanged; if the globals have changed, the clipboard held
    a text [d], the calls sleep / open / read / close were all issued, and
    the only change is [d] appended at the tail and the counter raised by
    one.  With no text on the clipboard it raises [TypeError] after the
    read, without closing the clipboard. *)
Theorem fEnqueueCopyQueue_reads_only :
  (forall g e, clip (env (fEnqueueCopyQueue g e)) = clip e) /\
  (forall g e x,
      x = pywintypes_error \/ x = TypeError ->
      res (fEnqueueCopyQueue g e) = Raise x ->
      glob (fEnqueueCopyQueue g e) = g) /\
  (forall g e,
      glob (fEnqueueCopyQueue g e) <> g ->
      exists d,
        clip e = Some d /\
        glob (fEnqueueCopyQueue g e) =
          mkGlobals (CopyQueue g ++ [d]) (Qcount g + 1) (placeCount g)
                    (QueueMode g) /\
        trace (env (fEnqueueCopyQueue g e)) = trace e ++ copy_calls) /\
  (forall g t,
      QueueMode g = true ->
      fEnqueueCopyQueue g (mkEnv None [] t) =
      mkOut (Raise TypeError) g
            (mkEnv None [] (t ++ [CSleep 100; COpenClipboard;
                                  CGetClipboardData]))).
Proof.
  split; [|split; [|split]].
  - intros g e.
    destruct (fEnqueueCopyQueue_cases g e)
      as [(_ & _ & _ & ->) | [(x & _ & _ & H) | (d & _ & _ & _ & H & _)]];
      auto.
  - intros g e x _ Hr.
    destruct (fEnqueueCopyQueue_cases g e)
      as [(H & _) | [(x' & _ & H & _) | (d & _ & H & _)]];
      [congruence | exact H | congruence].
  - intros g e Hg.
    destruct (fEnqueueCopyQueue_cases g e)
      as [(_ & _ & H & _) | [(x' & _ & H & _) | (d & Hc & Hr & H & _ & Ht)]];
      [congruence | congruence |].
    exists d. auto.
  - exact fEnqueueCopyQueue_no_text.
Qed.

Lemma fEnqueueCopyQueue_reads_only_witness :
  let g := mkGlobals ["a"] 1 0 true in
  (res (fEnqueueCopyQueue g quiet) = Raise TypeError /\
   glob (fEnqueueCopyQueue g quiet) = g) /\
  (let e := mkEnv (Some "b") [] [] in
   glob (fEnqueueCopyQueue g e) <> g /\
   exists d,
     clip e = Some d /\
     glob (fEnqueueCopyQueue g e) =
       mkGlobals (CopyQueue g ++ [d]) (Qcount g + 1) (placeCount g)
                 (QueueMode g) /\
     trace (env (fEnqueueCopyQueue g e)) = trace e ++ copy_calls) /\
  fEnqueueCopyQueue g (mkEnv None [] []) =
  mkOut (Raise TypeError) g
        (mkEnv None [] ([] ++ [CSleep 100; COpenClipboard; CGetClipboardData])).
Proof.
  cbv zeta. split; [split; [reflexivity|] | split; [split; [discriminate|]|]].
  - apply (proj1 (proj2 fEnqueueCopyQueue_reads_only) _ _ TypeError).
    + right. reflexivity.
    + reflexivity.
  - apply (proj1 (proj2 (proj2 fEnqueueCopyQueue_reads_only))). discriminate.
  - apply (proj2 (proj2 (proj2 fEnqueueCopyQueue_reads_only))). reflexivity.
Defined.

(** ** Who writes what *)

Lemma callback_written_by h g :
  wp (callback h) (fun _ => written_by h g) (written_by h g) g.
Proof.
  destruct h; cbn [callback]; wp_go.
  all: unfold written_by; cbn; repeat split; intros;
    try reflexivity; congruence.
Qed.

(** Each global has its own writers.  In every state and environment, and
    whether the callback returns or raises: only ctrl+b changes the mode
    flag, only ctrl+right and ctrl+left change the cursor, and only ctrl+c
    and ctrl+v change the list and the counter. *)
Theorem globals_have_their_writers :
  forall h g e, written_by h g (glob (callback h g e)).
Proof.
  intros h g e. pose proof (wp_run _ _ _ _ e (callback_written_by h g)) as H.
  destruct (res (callback h g e)); exact H.
Qed.

(** ** What ctrl+v does to the items that stay *)

Lemma py_getitem_tail {A} (x : A) (xs : list A) (i : Z) :
  0 <= i -> py_getitem xs i = py_getitem (x :: xs) (i + 1).
Proof.
  intros Hi. unfold py_getitem.
  destruct (Z.leb_spec 0 i); [|lia].
  destruct (Z.leb_spec 0 (i + 1)); [|lia].
  replace (Z.to_nat (i + 1)) with (S (Z.to_nat i)) by lia. reflexivity.
Qed.

(** Whenever ctrl+v changes the globals, in any environment, every item
    that stays moves one index down: index [i >= 0] of the new list holds
    what index [i + 1] held.  The cursor is not moved with them, so a
    non-negative cursor afterwards designates what was one place after it
    (or nothing, when it was on the last item). *)
Theorem paste_shifts_items :
  forall g e,
    glob (fDequeueCopyQueue g e) <> g ->
    (forall i, 0 <= i ->
       py_getitem (CopyQueue (glob (fDequeueCopyQueue g e))) i =
       py_getitem (CopyQueue g) (i + 1)) /\
    (0 <= placeCount g ->
       py_getitem (CopyQueue (glob (fDequeueCopyQueue g e)))
                  (placeCount (glob (fDequeueCopyQueue g e))) =
       py_getitem (CopyQueue g) (placeCount g + 1)) /\
    (placeCount g = Size g - 1 ->
       py_getitem (CopyQueue (glob (fDequeueCopyQueue g e)))
                  (placeCount (glob (fDequeueCopyQueue g e))) = None).
Proof.
  intros g e Hg.
  destruct (fDequeueCopyQueue_mutates g e Hg) as (x & Hx & _ & _ & _ & ->).
  destruct g as [l q p m]. cbn in *.
  destruct l as [|x' xs]; [discriminate|]. cbn [tl].
  split; [|split].
  - intros i Hi. apply py_getitem_tail, Hi.
  - intros Hp. apply py_getitem_tail, Hp.
  - unfold Size. cbn [CopyQueue List.length]. intros ->.
    apply py_getitem_beyond. lia.
Qed.

Lemma paste_shifts_items_witness :
  let g := mkGlobals ["a"; "b"; "c"] 3 1 true in
  let h := mkGlobals ["a"; "b"; "c"] 3 2 true in
  (glob (fDequeueCopyQueue g quiet) <> g /\
   py_getitem (CopyQueue g) (placeCount g) = Some "b" /\
   py_getitem (CopyQueue (glob (fDequeueCopyQueue g quiet)))
              (placeCount (glob (fDequeueCopyQueue g quiet))) =
   py_getitem (CopyQueue g) (placeCount g + 1)) /\
  (glob (fDequeueCopyQueue h quiet) <> h /\
   placeCount h = Size h - 1 /\
   py_getitem (CopyQueue (glob (fDequeueCopyQueue h quiet)))
              (placeCount (glob (fDequeueCopyQueue h quiet))) = None).
Proof.
  cbv zeta. split.
  - split; [discriminate|]. split; [reflexivity|].
    apply (proj1 (proj2 (paste_shifts_items
                           (mkGlobals ["a"; "b"; "c"] 3 1 true) quiet
                           ltac:(discriminate)))).
    cbn. lia.
  - split; [discriminate|]. split; [reflexivity|].
    apply (proj2 (proj2 (paste_shifts_items
                           (mkGlobals ["a"; "b"; "c"] 3 2 true) quiet
                           ltac:(discriminate)))).
    reflexivity.
Defined.

(** ** What a raise leaves behind *)

Lemma fNextInQueue_raise_working g c t x :
  res (fNextInQueue g (mkEnv c [] t)) = Raise x ->
  x = IndexError /\
  env (fNextInQueue g (mkEnv c [] t)) =
  mkEnv None [] (t ++ [COpenClipboard; CEmptyClipboard]).
Proof.
  destruct g as [l q p m]. unfold fNextInQueue, bind. cbn.
  destruct ((0 <? q) && (p <? Z.of_nat (List.length l) - 1)); cbn;
    [|discriminate].
  destruct (py_getitem l (p + 1)); cbn; [discriminate|].
  intros H. injection H as <-. rewrite <- !app_assoc. split; reflexivity.
Qed.

Lemma fPrevInQueue_raise_working g c t x :
  res (fPrevInQueue g (mkEnv c [] t)) = Raise x ->
  x = IndexError /\
  env (fPrevInQueue g (mkEnv c [] t)) =
  mkEnv None [] (t ++ [COpenClipboard; CEmptyClipboard]).
Proof.
  destruct g as [l q p m]. unfold fPrevInQueue, bind. cbn.
  destruct ((0 <? q) && (0 <? p)); cbn; [|discriminate].
  destruct (py_getitem l (p - 1)); cbn; [discriminate|].
  intros H. injection H as <-. rewrite <- !app_assoc. split; reflexivity.
Qed.

(** No callback cleans up after itself.  On a working clipboard, from a
    state whose counter agrees with the list, a [TypeError] leaving a
    callback comes from ctrl+c finding no text on the clipboard (after
    sleep / open / read), and an [IndexError] leaving a callback comes from
    ctrl+right or ctrl+left missing the list (after open / empty, the old
    clipboard text gone); in both cases the clipboard was opened and
    [CloseClipboard] was never called. *)
Theorem raise_leaves_clipboard_open :
  forall h g c t x,
    counter_in_sync g ->
    x = TypeError \/ x = IndexError ->
    res (callback h g (mkEnv c [] t)) = Raise x ->
    (h = OnCopy /\ x = TypeError /\ c = None /\
     env (callback h g (mkEnv c [] t)) =
     mkEnv None [] (t ++ [CSleep 100; COpenClipboard; CGetClipboardData])) \/
    ((h = OnNext \/ h = OnPrev) /\ x = IndexError /\
     env (callback h g (mkEnv c [] t)) =
     mkEnv None [] (t ++ [COpenClipboard; CEmptyClipboard])).
Proof.
  intros h g c t x Hs _ Hr. destruct h; cbn [callback] in *.
  - left. destruct c as [d|].
    + destruct (QueueMode g) eqn:Hm.
      * rewrite fEnqueueCopyQueue_ok in Hr by exact Hm. discriminate.
      * destruct g as [l q p m]. cbn in Hm. subst m. discriminate.
    + destruct (QueueMode g) eqn:Hm.
      * rewrite (fEnqueueCopyQueue_no_text g t Hm) in Hr |- *.
        cbn in Hr. injection Hr as <-. auto.
      * destruct g as [l q p m]. cbn in Hm. subst m. discriminate.
  - exfalso.
    destruct g as [l q p m]. unfold counter_in_sync, Size in Hs. cbn in Hs.
    subst q. destruct m; [|discriminate].
    destruct l as [|y ys]; [discriminate|].
    rewrite (fDequeueCopyQueue_ok _ c t y ys) in Hr
      by (cbn [QueueMode Qcount CopyQueue List.length]; try reflexivity; lia).
    discriminate.
  - destruct g as [l q p [|]]; discriminate.
  - right. destruct (fNextInQueue_raise_working g c t x Hr) as (-> & He).
    auto.
  - right. destruct (fPrevInQueue_raise_working g c t x Hr) as (-> & He).
    auto.
Qed.

Lemma raise_leaves_clipboard_open_witness :
  let g := mkGlobals ["c"] 1 2 true in
  counter_in_sync g /\
  res (callback OnPrev g quiet) = Raise IndexError /\
  ((OnPrev = OnCopy /\ IndexError = TypeError /\ @None string = None /\
    env (callback OnPrev g (mkEnv None [] [])) =
    mkEnv None [] ([] ++ [CSleep 100; COpenClipboard; CGetClipboardData])) \/
   ((OnPrev = OnNext \/ OnPrev = OnPrev) /\ IndexError = IndexError /\
    env (callback OnPrev g (mkEnv None [] [])) =
    mkEnv None [] ([] ++ [COpenClipboard; CEmptyClipboard]))).
Proof.
  cbv zeta. split; [reflexivity|]. split; [reflexivity|].
  apply (raise_leaves_clipboard_open OnPrev (mkGlobals ["c"] 1 2 true)
                                     None [] IndexError);
    [reflexivity | right; reflexivity | reflexivity].
Defined.

(** ** What ctrl+c does to the items already there *)

Lemma py_getitem_app {A} (l : list A) (d : A) (i : Z) :
  0 <= i < Z.of_nat (List.length l) ->
  py_getitem (l ++ [d]) i = py_getitem l i.
Proof.
  intros Hi. unfold py_getitem.
  destruct (Z.leb_spec 0 i); [|lia].
  apply nth_error_app1. lia.
Qed.

(** ctrl+c never disturbs the items already queued: in every state and
    environment, every index from 0 to [Size - 1] holds the same item after
    the callback as before, so the item under an in-range cursor stays the
    same however many texts are copied. *)
Theorem copy_keeps_items :
  forall g e i,
    0 <= i < Size g ->
    py_getitem (CopyQueue (glob (fEnqueueCopyQueue g e))) i =
    py_getitem (CopyQueue g) i.
Proof.
  intros g e i Hi.
  destruct (fEnqueueCopyQueue_cases g e)
    as [(_ & _ & -> & _) | [(x & _ & -> & _) | (d & _ & _ & -> & _)]];
    try reflexivity.
  cbn [CopyQueue]. apply py_getitem_app. exact Hi.
Qed.

Lemma copy_keeps_items_witness :
  let g := mkGlobals ["a"; "b"] 2 1 true in
  let e := mkEnv (Some "c") [] [] in
  0 <= 1 < Size g /\
  py_getitem (CopyQueue (glob (fEnqueueCopyQueue g e))) 1 =
  py_getitem (CopyQueue g) 1.
Proof.
  cbv zeta. split; [unfold Size; cbn; lia|].
  apply copy_keeps_items. unfold Size. cbn. lia.
Defined.
